(** * chaos_kitten.paws.executor: the HTTP executor

    A shallow embedding of [src/chaos_kitten/paws/executor.py] and the
    properties of its request path: header construction, the scoped
    session, the rate-limit delay, the retry loop and the result
    dictionaries.

    Conventions of the embedding.
    - Python [dict]s are stdpp [gmap]s with [string] keys; a value that
      may be [None] is an [option].
    - The executor runs against an outside world: a monotonic clock, the
      set of clients that were closed, and the network.  Coroutines are
      functions [World -> Run A]: they return a value or raise, leave a
      new world, and emit the list of effects they performed, in order.
    - The network is a parameter [env]: for the n-th request handed to an
      open client it gives the time the round trip takes and how it
      ends (a response, or an exception).
    - Python floats (seconds) are idealised as rationals [Q]. *)

From Stdlib Require Import Ascii String QArith Qround.
From stdpp Require Import base gmap strings list fin_maps.

Local Open Scope string_scope.

(** ** Strings *)

Module PyStr.

(** [s.lstrip(chars)]: drop leading characters that occur in [chars]. *)
Fixpoint lstrip (chars : list ascii) (s : string) : string :=
  match s with
  | String c s' => if bool_decide (c ∈ chars) then lstrip chars s' else s
  | EmptyString => EmptyString
  end.

(** [s.rstrip(chars)]: drop trailing characters that occur in [chars]. *)
Fixpoint rstrip (chars : list ascii) (s : string) : string :=
  match s with
  | String c s' =>
      match rstrip chars s' with
      | EmptyString =>
          if bool_decide (c ∈ chars) then EmptyString else String c EmptyString
      | r => String c r
      end
  | EmptyString => EmptyString
  end.

(** [str.upper()] of a string of ASCII characters: [a]..[z] go to
    [A]..[Z], every other character is kept.  Python maps characters
    outside ASCII by the tables of Unicode, which are not modelled: what
    is proved of the result of [upper] is proved for the strings of
    [is_ascii]. *)
Definition upper_ascii (c : ascii) : ascii :=
  let n := nat_of_ascii c in
  if (97 <=? n)%nat && (n <=? 122)%nat then ascii_of_nat (n - 32) else c.

Fixpoint upper (s : string) : string :=
  match s with
  | String c s' => String (upper_ascii c) (upper s')
  | EmptyString => EmptyString
  end.

(** [str.isascii()]: every character is below 128. *)
Fixpoint is_ascii (s : string) : bool :=
  match s with
  | String c s' => (nat_of_ascii c <? 128)%nat && is_ascii s'
  | EmptyString => true
  end.

(** Truth value of an [str | None]: [None] and the empty string are
    false. *)
Definition truthy (o : option string) : bool :=
  match o with
  | Some (String _ _) => true
  | _ => false
  end.

End PyStr.

(** Truth value of a [dict | None]: [None] and the empty dict are false. *)
Definition dict_truthy {V} (o : option (gmap string V)) : bool :=
  match o with
  | Some d => negb (bool_decide (size d = 0%nat))
  | None => false
  end.

(** ** Data *)

(** Values a payload may carry ([dict[str, Any]]). *)
Inductive PyVal :=
| PNone
| PBool (b : bool)
| PInt (z : Z)
| PStr (s : string)
| PBytes (b : string).

(** Keyword arguments of [client.request]: [headers] holds a header
    dict, [json] and [params] hold the payload. *)
Inductive Kwarg :=
| KwHeaders (h : gmap string string)
| KwPayload (p : gmap string PyVal).

(** Values of the dictionaries [execute_attack] returns. *)
Inductive Value :=
| VInt (z : Z)
| VStr (s : string)
| VDict (d : gmap string string).

(** [httpx.AsyncClient(base_url=..., timeout=..., headers=...)]; the
    identity of the object is [client_id]. *)
Record Client := mkClient {
  client_id : nat;
  client_base_url : string;
  client_timeout : Z;
  client_headers : gmap string string
}.

(** The attributes of an [Executor] instance. *)
Record Executor := mkExecutor {
  base_url : string;
  auth_type : string;
  auth_token : option string;
  rate_limit : Z;
  timeout : Z;
  _client : option Client
}.

(** What [client.request(method, url, **kwargs)] is called with. *)
Record Request := mkRequest {
  rq_method : string;
  rq_url : string;
  rq_kwargs : gmap string Kwarg
}.

(** The parts of an [httpx.Response] the executor reads:
    [response.status_code], [response.text], [dict(response.headers)] and
    [str(response.url)]. *)
Record Response := mkResponse {
  status_code : Z;
  text : string;
  resp_headers : gmap string string;
  resp_url : string
}.

(** Exceptions.  [RequestError] stands for [httpx.RequestError] and all
    its subclasses (timeouts, connection, protocol, decoding errors), with
    [str(e)] as argument; [OtherError] is any exception of another class
    that a request may raise ([TypeError] for a payload that cannot be
    serialised, [httpx.InvalidURL], ...). *)
Inductive Exn :=
| RuntimeError (msg : string)
| RequestError (msg : string)
| OtherError (cls msg : string).

(** ** The outside world *)

(** How a request handed to an open client ends. *)
Inductive Outcome :=
| Responded (r : Response)
| Failed (e : Exn).

(** The network: the [n]-th request, sent through client [c], takes
    [fst] seconds and ends as [snd]. *)
Definition Env := nat -> Client -> Request -> Q * Outcome.

Inductive Event :=
| EvOpen (c : Client)
| EvSleep (seconds : Q)
| EvRequest (c : nat) (rq : Request)
| EvClose (c : nat).

Record World := mkWorld {
  now : Q;              (* reading of time.monotonic() *)
  sent : nat;           (* requests handed to an open client so far *)
  closed : gset nat;    (* clients on which aclose() has run *)
  fresh : nat           (* identity of the next client object *)
}.

Inductive Res (A : Type) :=
| Ok (a : A)
| Raise (e : Exn).
Arguments Ok {A} a.
Arguments Raise {A} e.

Record Run (A : Type) := mkRun {
  outcome : Res A;
  final : World;
  events : list Event
}.
Arguments mkRun {A} _ _ _.
Arguments outcome {A} _.
Arguments final {A} _.
Arguments events {A} _.

Definition M (A : Type) : Type := World -> Run A.

Definition ret {A} (a : A) : M A := fun w => mkRun (Ok a) w [].

Definition raise {A} (e : Exn) : M A := fun w => mkRun (Raise e) w [].

Definition bind {A B} (m : M A) (k : A -> M B) : M B := fun w =>
  let r := m w in
  match outcome r with
  | Ok a =>
      let r' := k a (final r) in
      mkRun (outcome r') (final r') (events r ++ events r')
  | Raise e => mkRun (Raise e) (final r) (events r)
  end.

Declare Scope exec_scope.
Delimit Scope exec_scope with exec.
Notation "'let*' x ':=' c1 'in' c2" := (bind c1 (fun x => c2))
  (at level 10, x name, c1 at level 100, c2 at level 200) : exec_scope.
Notation "c1 ';;' c2" := (bind c1 (fun _ => c2))
  (at level 100, c2 at level 200, right associativity) : exec_scope.
Local Open Scope exec_scope.

(** [try: body except httpx.RequestError as e: handler(str(e))]: only
    [RequestError] is caught, every other exception goes on. *)
Definition try_except_RequestError {A}
    (body : M A) (handler : string -> M A) : M A := fun w =>
  let r := body w in
  match outcome r with
  | Raise (RequestError msg) =>
      let r' := handler msg (final r) in
      mkRun (outcome r') (final r') (events r ++ events r')
  | _ => r
  end.

(** [time.monotonic()] *)
Definition monotonic : M Q := fun w => mkRun (Ok (now w)) w [].

(** The world once [seconds] have passed. *)
Definition later (w : World) (seconds : Q) : World :=
  mkWorld (now w + seconds) (sent w) (closed w) (fresh w).

(** The world once one more request, [seconds] long, is over. *)
Definition after_request (w : World) (seconds : Q) : World :=
  mkWorld (now w + seconds) (S (sent w)) (closed w) (fresh w).

(** [await asyncio.sleep(seconds)] *)
Definition sleep (seconds : Q) : M unit := fun w =>
  mkRun (Ok tt) (later w seconds) [EvSleep seconds].

(** [int((stop - start) * 1000)]: [int] truncates towards zero. *)
Definition Qtrunc (q : Q) : Z :=
  if Qle_bool 0 q then Qfloor q else Qceiling q.

Definition elapsed_ms_of (start stop : Q) : Z :=
  Qtrunc ((stop - start) * inject_Z 1000).

(** The error of httpx for a request through a closed client. *)
Definition closed_client_error : Exn :=
  RuntimeError "Cannot send a request, as the client has been closed.".

(** The error of [execute_attack] for an executor without client. *)
Definition uninitialized_error : Exn :=
  RuntimeError "Executor context not initialized. Use 'async with' block.".

Section WithNetwork.

Variable env : Env.

(** [httpx.AsyncClient(...)]: a new client object, open. *)
Definition AsyncClient (base : string) (tmo : Z)
    (hdrs : gmap string string) : M Client := fun w =>
  let c := mkClient (fresh w) base tmo hdrs in
  mkRun (Ok c)
        (mkWorld (now w) (sent w) (closed w ∖ {[fresh w]}) (S (fresh w)))
        [EvOpen c].

(** [await client.aclose()] *)
Definition aclose (c : Client) : M unit := fun w =>
  mkRun (Ok tt)
        (mkWorld (now w) (sent w) ({[client_id c]} ∪ closed w) (fresh w))
        [EvClose (client_id c)].

(** [await client.request(method, url, **kwargs)].  httpx refuses to
    send through a closed client with a [RuntimeError]; through an open
    one the network decides. *)
Definition client_request (c : Client) (rq : Request) : M Response := fun w =>
  if bool_decide (client_id c ∈ closed w) then
    mkRun (Raise closed_client_error) w []
  else
    let w' := after_request w (fst (env (sent w) c rq)) in
    match snd (env (sent w) c rq) with
    | Responded r => mkRun (Ok r) w' [EvRequest (client_id c) rq]
    | Failed e => mkRun (Raise e) w' [EvRequest (client_id c) rq]
    end.

(** ** The executor *)

(** [Executor.__init__] *)
Definition __init__ (base_url : string) (auth_type : string)
    (auth_token : option string) (rate_limit timeout : Z) : Executor :=
  {| base_url := PyStr.rstrip ["/"%char] base_url;
     auth_type := auth_type;
     auth_token := auth_token;
     rate_limit := rate_limit;
     timeout := timeout;
     _client := None |}.

(** [Executor._build_headers] *)
Definition _build_headers (self : Executor) : gmap string string :=
  let headers : gmap string string := {[ "User-Agent" := "ChaosKitten/0.1.0" ]} in
  if bool_decide (auth_type self ∈ ["bearer"; "oauth"])
     && PyStr.truthy (auth_token self)
  then <["Authorization" := "Bearer " ++ default "" (auth_token self)]> headers
  else if bool_decide (auth_type self = "basic")
          && PyStr.truthy (auth_token self)
  then <["Authorization" := "Basic " ++ default "" (auth_token self)]> headers
  else headers.

(** [self._client = ...]: the instance with the attribute rebound. *)
Definition set_client (self : Executor) (c : option Client) : Executor :=
  {| base_url := base_url self;
     auth_type := auth_type self;
     auth_token := auth_token self;
     rate_limit := rate_limit self;
     timeout := timeout self;
     _client := c |}.

(** [Executor.__aenter__]; returns [self] after the assignment. *)
Definition __aenter__ (self : Executor) : M Executor :=
  let* c := AsyncClient (base_url self) (timeout self) (_build_headers self) in
  ret (set_client self (Some c)).

(** [Executor.__aexit__]; [self] is left as it is. *)
Definition __aexit__ (self : Executor) : M unit :=
  match _client self with
  | Some c => aclose c
  | None => ret tt
  end.

(** Lines 105-113: the keyword arguments of the request. *)
Definition request_kwargs (method : string)
    (payload : option (gmap string PyVal))
    (headers : option (gmap string string)) : gmap string Kwarg :=
  let kwargs : gmap string Kwarg := ∅ in
  let kwargs :=
    if dict_truthy headers
    then <["headers" := KwHeaders (default ∅ headers)]> kwargs
    else kwargs in
  match payload with
  | Some p =>
      if bool_decide (PyStr.upper method ∈ ["POST"; "PUT"; "PATCH"])
      then <["json" := KwPayload p]> kwargs
      else <["params" := KwPayload p]> kwargs
  | None => kwargs
  end.

(** The dictionary returned after a round trip (lines 118-124). *)
Definition response_dict (response : Response) (elapsed_ms : Z)
    : gmap string Value :=
  <["status_code" := VInt (status_code response)]>
  (<["response_body" := VStr (text response)]>
  (<["elapsed_ms" := VInt elapsed_ms]>
  (<["headers" := VDict (resp_headers response)]>
  (<["url" := VStr (resp_url response)]> ∅)))).

(** The dictionary returned when the last attempt failed (lines
    129-135). *)
Definition failure_dict (e : string) (elapsed_ms : Z) (url : string)
    : gmap string Value :=
  <["status_code" := VInt 0]>
  (<["error" := VStr e]>
  (<["elapsed_ms" := VInt elapsed_ms]>
  (<["response_body" := VStr ""]>
  (<["url" := VStr url]> ∅)))).

(** The body of [for attempt in range(max_retries + 1)], over the
    values [attempt] still has to take.  One turn of the loop yields
    [Some d] when it executes [return d] and [None] when it runs to its
    end; the loop running out yields [None], Python's implicit return
    value. *)
Fixpoint attempts (client : Client) (method url : string)
    (payload : option (gmap string PyVal))
    (headers : option (gmap string string))
    (max_retries : nat) (range : list nat)
    : M (option (gmap string Value)) :=
  match range with
  | [] => ret None
  | attempt :: range' =>
      let* start_time := monotonic in
      let* returned :=
        try_except_RequestError
          (let kwargs := request_kwargs method payload headers in
           let* response := client_request client (mkRequest method url kwargs) in
           let* t := monotonic in
           let elapsed_ms := elapsed_ms_of start_time t in
           ret (Some (response_dict response elapsed_ms)))
          (fun e =>
           let* t := monotonic in
           let elapsed_ms := elapsed_ms_of start_time t in
           if (attempt =? max_retries)%nat
           then ret (Some (failure_dict e elapsed_ms url))
           else ret None) in
      match returned with
      | Some d => ret (Some d)
      | None =>
          sleep (1 # 2) ;;
          attempts client method url payload headers max_retries range'
      end
  end.

(** [Executor.execute_attack] *)
Definition execute_attack (self : Executor) (method path : string)
    (payload : option (gmap string PyVal))
    (headers : option (gmap string string))
    : M (option (gmap string Value)) :=
  match _client self with
  | None =>
      raise uninitialized_error
  | Some client =>
      let url := PyStr.lstrip ["/"%char] path in
      let max_retries := 2%nat in
      (if (0 <? rate_limit self)%Z
       then sleep (1 / inject_Z (rate_limit self))
       else ret tt) ;;
      attempts client method url payload headers max_retries
               (seq 0 (max_retries + 1))
  end.

(** ** Scoped use: [async with executor as self: ...] *)

(** One statement of the block: [await target.execute_attack(...)],
    where the target is the executor of the block ([None]) or some other
    executor object. *)
Record Stmt := mkStmt {
  st_target : option Executor;
  st_method : string;
  st_path : string;
  st_payload : option (gmap string PyVal);
  st_headers : option (gmap string string)
}.

(** The statements of a block in sequence; an exception ends the block. *)
Fixpoint run_block (self : Executor) (block : list Stmt) : M unit :=
  match block with
  | [] => ret tt
  | st :: block' =>
      execute_attack (default self (st_target st)) (st_method st)
                     (st_path st) (st_payload st) (st_headers st) ;;
      run_block self block'
  end.

(** [async with executor as self: block].  [__aexit__] runs when the
    block is left, by its end or by an exception; it returns [None], so
    an exception of the block is raised again after it. *)
Definition async_with (executor : Executor) (block : list Stmt) : M unit :=
  let* self := __aenter__ executor in
  fun w =>
    let r := run_block self block w in
    let r' := __aexit__ self (final r) in
    match outcome r' with
    | Ok _ => mkRun (outcome r) (final r') (events r ++ events r')
    | Raise e => mkRun (Raise e) (final r') (events r ++ events r')
    end.

End WithNetwork.


(** ** Vocabulary of the specification *)

(** The executor is inside its scope: it holds a client, and the client
    was not closed. *)
Definition active (self : Executor) (w : World) : Prop :=
  exists c, _client self = Some c /\ client_id c ∉ closed w.

(** The request [execute_attack] hands to its client. *)
Definition request_of (method path : string)
    (payload : option (gmap string PyVal))
    (headers : option (gmap string string)) : Request :=
  mkRequest method (PyStr.lstrip ["/"%char] path)
            (request_kwargs method payload headers).

(** The rate-limit delay of one call: [1.0 / rate_limit] seconds when the
    limit is positive, nothing otherwise. *)
Definition rate_delay (limit : Z) : list Event :=
  if (0 <? limit)%Z then [EvSleep (1 / inject_Z limit)] else [].

(** [n] attempts at the same request, with the backoff of half a second
    between two of them (and none after the last). *)
Fixpoint attempt_trace (n : nat) (ev : Event) : list Event :=
  match n with
  | O => []
  | S O => [ev]
  | S n' => ev :: EvSleep (1 # 2) :: attempt_trace n' ev
  end.

(** The requests among the events, and the clients closed by them. *)
Definition requests (evs : list Event) : list Request :=
  omap (fun ev => match ev with EvRequest _ rq => Some rq | _ => None end) evs.

Definition closes (evs : list Event) : list nat :=
  omap (fun ev => match ev with EvClose c => Some c | _ => None end) evs.

Definition sleeps (evs : list Event) : list Q :=
  omap (fun ev => match ev with EvSleep s => Some s | _ => None end) evs.

(** Comparison of strings without regard to case, by folding both sides
    to lower case. *)
Definition lower_ascii (c : ascii) : ascii :=
  let n := nat_of_ascii c in
  if (65 <=? n)%nat && (n <=? 90)%nat then ascii_of_nat (n + 32) else c.

Fixpoint lower (s : string) : string :=
  match s with
  | String c s' => String (lower_ascii c) (lower s')
  | EmptyString => EmptyString
  end.

Definition same_ignoring_case (a b : string) : Prop := lower a = lower b.

(** "[method] (case-insensitive) is one of POST, PUT, PATCH". *)
Definition body_method (method : string) : Prop :=
  exists verb, verb ∈ ["POST"; "PUT"; "PATCH"] /\ same_ignoring_case method verb.


(** What a run that ended with the request number [n] of the world gave
    back: the response of that request; or, for a [RequestError], the
    failure result, and then the attempt was the last one allowed
    ([last] holds); or the exception of another class. *)
Definition settled (env : Env) (client : Client) (rq : Request) (n : nat)
    (last : Prop) (r : Run (option (gmap string Value))) : Prop :=
  let elapsed_ms := Qtrunc (fst (env n client rq) * inject_Z 1000) in
  match snd (env n client rq) with
  | Responded response =>
      outcome r = Ok (Some (response_dict response elapsed_ms))
  | Failed (RequestError e) =>
      last /\ outcome r = Ok (Some (failure_dict e elapsed_ms (rq_url rq)))
  | Failed e => outcome r = Raise e
  end.

(** "A delay of [1.0 / rate_limit] seconds is applied before every request
    attempt": each request among the events comes directly after that
    sleep. *)
Definition delayed_before_each_attempt (limit : Z) (evs : list Event) : Prop :=
  forall i c rq, evs !! i = Some (EvRequest c rq) ->
    exists j, i = S j /\ evs !! j = Some (EvSleep (1 / inject_Z limit)).

(** "Every attempt fails at the network level." *)
Definition all_attempts_fail (env : Env) : Prop :=
  forall n c rq, exists e, snd (env n c rq) = Failed (RequestError e).

(** No request ends in an exception outside [httpx.RequestError]. *)
Definition only_network_failures (env : Env) : Prop :=
  forall n c rq e, snd (env n c rq) = Failed e -> exists msg, e = RequestError msg.

(** HTTP status codes have three digits; in particular none is [0]. *)
Definition http_status_codes (env : Env) : Prop :=
  forall n c rq response, snd (env n c rq) = Responded response ->
    (100 <= status_code response <= 999)%Z.

(** ** Sample runs *)

Module Sample.

(** [Executor("http://target.test/", "bearer", "s3cret")], with the
    default rate limit and timeout. *)
Definition target : Executor :=
  __init__ "http://target.test/" "bearer" (Some "s3cret") 10 30.

Definition outside : World := mkWorld 0 0 ∅ 0.

(** The executor and the world inside [async with target]. *)
Definition session : Client :=
  mkClient 0 "http://target.test" 30 (_build_headers target).
Definition entered : Executor := set_client target (Some session).
Definition inside : World := mkWorld 0 0 ∅ 1.

(** A target that refuses every connection: a [ConnectError] after a
    quarter of a second. *)
Definition refusing : Env := fun _ _ _ =>
  (1 # 4, Failed (RequestError "All connection attempts failed")).

(** A target that never answers: httpx raises [ReadTimeout] with an empty
    message when the timeout is over. *)
Definition silent : Env := fun _ _ _ => (30 # 1, Failed (RequestError "")).

(** A target that answers every request with status [code]. *)
Definition answering (code : Z) : Env := fun _ _ rq =>
  (1 # 8, Responded (mkResponse code "{}" {[ "server" := "t" ]}
                       ("http://target.test/" ++ rq_url rq))).

(** A target that refuses the first two connections. *)
Definition waking_up : Env := fun n c rq =>
  if (n <? 2)%nat then refusing n c rq else answering 200 n c rq.


(** [async with target as self: pass], and a call after it. *)
Definition use_after_exit (env : Env) : M (option (gmap string Value)) :=
  let* self := __aenter__ target in
  __aexit__ self ;;
  execute_attack env self "GET" "/users" None None.

End Sample.

(** ** Programs and sets for the further properties *)

(** [n] slashes. *)
Fixpoint slashes (n : nat) : string :=
  match n with
  | O => EmptyString
  | S n' => String "/" (slashes n')
  end.

(** [async with executor as self: await self.execute_attack(...)], up to
    the end of the call. *)
Definition call_after_entry (env : Env) (executor : Executor)
    (method path : string) (payload : option (gmap string PyVal))
    (headers : option (gmap string string))
    : M (option (gmap string Value)) :=
  let* self := __aenter__ executor in
  execute_attack env self method path payload headers.

(** [async with executor: async with executor: pass]: the scope of one
    executor object entered again inside itself. *)
Definition nested_entry (executor : Executor) : M unit :=
  let* self := __aenter__ executor in
  let* self := __aenter__ self in
  __aexit__ self ;;
  __aexit__ self.

(** [async with executor: pass], and the same object entered again. *)
Definition reentry (executor : Executor) : M Executor :=
  let* self := __aenter__ executor in
  __aexit__ self ;;
  __aenter__ self.

(** The keys of the two kinds of result. *)
Definition response_keys : gset string :=
  {[ "status_code"; "response_body"; "elapsed_ms"; "headers"; "url" ]}.

Definition failure_keys : gset string :=
  {[ "status_code"; "error"; "elapsed_ms"; "response_body"; "url" ]}.

(** * Properties *)

(** ** Clock arithmetic *)

Lemma Qtrunc_comp (p q : Q) : (p == q)%Q -> Qtrunc p = Qtrunc q.
Proof.
  intros E. unfold Qtrunc.
  assert (Qle_bool 0 p = Qle_bool 0 q) as ->.
  { destruct (Qle_bool 0 q) eqn:Hq.
    - apply Qle_bool_iff. rewrite E. by apply Qle_bool_iff.
    - destruct (Qle_bool 0 p) eqn:Hp; [|done].
      apply Qle_bool_iff in Hp. rewrite E in Hp.
      apply Qle_bool_iff in Hp. congruence. }
  destruct (Qle_bool 0 q); [by apply Qfloor_comp | by apply Qceiling_comp].
Qed.

(** The time measured across a request depends on the length of that
    request alone, not on the reading of the clock at its start. *)
Lemma elapsed_ms_of_request (start seconds : Q) :
  elapsed_ms_of start (start + seconds) = Qtrunc (seconds * inject_Z 1000).
Proof. unfold elapsed_ms_of. apply Qtrunc_comp. ring. Qed.

(** ** Header construction *)

Section Headers.

Implicit Types (self : Executor) (token : string).

Lemma truthy_Some token : token ≠ "" -> PyStr.truthy (Some token) = true.
Proof. by destruct token. Qed.

Lemma truthy_false_inv (o : option string) :
  PyStr.truthy o = false <-> o = None \/ o = Some "".
Proof.
  destruct o as [[|c t]|]; simpl; split; intros H;
    try done; auto; destruct H; done.
Qed.

Lemma build_headers_user_agent self :
  _build_headers self !! "User-Agent" = Some "ChaosKitten/0.1.0".
Proof.
  unfold _build_headers.
  repeat case_match; by simplify_map_eq.
Qed.

Lemma build_headers_bearer self token :
  auth_type self ∈ ["bearer"; "oauth"] -> auth_token self = Some token ->
  token ≠ "" ->
  _build_headers self !! "Authorization" = Some ("Bearer " ++ token).
Proof.
  intros Ht Hk Hne. unfold _build_headers.
  rewrite (bool_decide_eq_true_2 _ Ht), Hk, truthy_Some by done.
  simpl. by simplify_map_eq.
Qed.

Lemma build_headers_basic self token :
  auth_type self = "basic" -> auth_token self = Some token -> token ≠ "" ->
  _build_headers self !! "Authorization" = Some ("Basic " ++ token).
Proof.
  intros Ht Hk Hne. unfold _build_headers.
  rewrite Ht, Hk, truthy_Some by done. simpl. by simplify_map_eq.
Qed.

Lemma build_headers_no_token self :
  auth_token self = None \/ auth_token self = Some "" ->
  _build_headers self !! "Authorization" = None.
Proof.
  intros H. apply truthy_false_inv in H. unfold _build_headers.
  rewrite H, !andb_false_r. by simplify_map_eq.
Qed.

Lemma build_headers_other_type self :
  auth_type self ∉ ["bearer"; "oauth"; "basic"] ->
  _build_headers self !! "Authorization" = None.
Proof.
  rewrite !not_elem_of_cons. intros (Hb & Ho & Hc & _).
  unfold _build_headers.
  rewrite bool_decide_eq_false_2.
  - rewrite (bool_decide_eq_false_2 _ Hc). by simplify_map_eq.
  - rewrite !not_elem_of_cons. repeat split; auto using not_elem_of_nil.
Qed.

Lemma build_headers_keys self (k : string) :
  is_Some (_build_headers self !! k) -> k = "User-Agent" \/ k = "Authorization".
Proof.
  unfold _build_headers. intros [v Hv].
  destruct (decide (k = "User-Agent")); [auto|].
  destruct (decide (k = "Authorization")); [auto|].
  destruct (_ && _); [|destruct (_ && _)]; by simplify_map_eq.
Qed.

End Headers.

(** ** The retry loop, one turn at a time *)

Section Loop.

Variable env : Env.
Variables (client : Client) (method url : string).
Variables (payload : option (gmap string PyVal)).
Variables (headers : option (gmap string string)).
Variable max_retries : nat.

Let rq := mkRequest method url (request_kwargs method payload headers).
Let ev := EvRequest (client_id client) rq.
Let loop := attempts env client method url payload headers max_retries.

(** The loop that has no value left for [attempt] ends at once. *)
Lemma attempts_nil w : loop [] w = mkRun (Ok None) w [].
Proof. reflexivity. Qed.

(** One turn of the loop, by the way its request ends. *)
Lemma attempts_cons attempt range w :
  loop (attempt :: range) w =
    if bool_decide (client_id client ∈ closed w)
    then mkRun (Raise closed_client_error) w []
    else
      let seconds := fst (env (sent w) client rq) in
      let w' := after_request w seconds in
      let elapsed_ms := Qtrunc (seconds * inject_Z 1000) in
      match snd (env (sent w) client rq) with
      | Responded response =>
          mkRun (Ok (Some (response_dict response elapsed_ms))) w' [ev]
      | Failed (RequestError e) =>
          if (attempt =? max_retries)%nat
          then mkRun (Ok (Some (failure_dict e elapsed_ms url))) w' [ev]
          else
            let r := loop range (later w' (1 # 2)) in
            mkRun (outcome r) (final r) (ev :: EvSleep (1 # 2) :: events r)
      | Failed e => mkRun (Raise e) w' [ev]
      end.
Proof.
  unfold loop at 1. simpl attempts. fold loop. fold rq.
  unfold bind, try_except_RequestError, monotonic, client_request.
  cbn [outcome final events].
  destruct (bool_decide (client_id client ∈ closed w)); [reflexivity|].
  cbn zeta. fold ev.
  destruct (snd (env (sent w) client rq)) as [response|[msg|msg|cls msg]];
    cbn [outcome final events app ret after_request now];
    rewrite ?elapsed_ms_of_request; try reflexivity.
  destruct (attempt =? max_retries)%nat; reflexivity.
Qed.

(** A closed client stops the loop before anything is sent. *)
Lemma attempts_closed attempt range w :
  client_id client ∈ closed w ->
  loop (attempt :: range) w = mkRun (Raise closed_client_error) w [].
Proof.
  intros Hc. rewrite attempts_cons. by rewrite bool_decide_eq_true_2.
Qed.

(** The run stops at its first attempt. *)
Local Ltac stops_at_once Hout :=
  exists 0%nat; unfold settled; rewrite Nat.add_0_r, Hout;
  cbn [outcome final events after_request sent closed fresh attempt_trace rq_url];
  repeat split; first [lia | done].

(** The loop over [range(first, max_retries + 1)] with an open client
    makes [m + 1] attempts, at most as many as the range has values.
    All but the last ended in a [RequestError] and were followed by the
    backoff; the last one decides the result. *)
Lemma attempts_run k : forall first w,
  (first + k = S max_retries)%nat -> (0 < k)%nat ->
  client_id client ∉ closed w ->
  exists m, (m < k)%nat /\
    events (loop (seq first k) w) = attempt_trace (S m) ev /\
    sent (final (loop (seq first k) w)) = (sent w + S m)%nat /\
    closed (final (loop (seq first k) w)) = closed w /\
    fresh (final (loop (seq first k) w)) = fresh w /\
    (forall j, (j < m)%nat -> exists e,
       snd (env (sent w + j) client rq) = Failed (RequestError e)) /\
    settled env client rq (sent w + m) (S m = k) (loop (seq first k) w).
Proof.
  induction k as [|k IH]; intros first w Hsum Hpos Hopen; [lia|].
  cbn [seq]. rewrite attempts_cons.
  rewrite (bool_decide_eq_false_2 _ Hopen). cbn zeta.
  destruct (snd (env (sent w) client rq)) as [resp|[msg|msg|cls msg]] eqn:Hout.
  - stops_at_once Hout.
  - stops_at_once Hout.
  - destruct (Nat.eqb_spec first max_retries) as [->|Hne].
    + assert (k = 0)%nat as -> by lia. stops_at_once Hout.
    + set (w' := later (after_request w (fst (env (sent w) client rq))) (1 # 2)).
      destruct (IH (S first) w')
        as (m & Hm & Hev & Hs & Hc & Hf & Hearlier & Hlast); [lia|lia|done|].
      exists (S m). cbn [outcome final events].
      rewrite Hev, Hs, Hc, Hf.
      cbn [w' later after_request sent closed fresh] in *.
      replace (sent w + S m)%nat with (S (sent w) + m)%nat by lia.
      repeat split; try lia; try done.
      * intros [|j] Hj; [rewrite Nat.add_0_r; eauto|].
        replace (sent w + S j)%nat with (S (sent w) + j)%nat by lia.
        apply Hearlier. lia.
      * unfold settled in *. cbn [outcome].
        destruct (snd (env (S (sent w) + m) client rq))
          as [resp|[msg'|msg'|cls' msg']]; try done.
        destruct Hlast as [<- ?]. done.
  - stops_at_once Hout.
Qed.

End Loop.

(** ** One call of [execute_attack] *)

Section Call.

Variable env : Env.
Variables (self : Executor) (method path : string).
Variables (payload : option (gmap string PyVal)).
Variables (headers : option (gmap string string)).

Let rq := request_of method path payload headers.
Let call := execute_attack env self method path payload headers.

(** Without a client the call raises at once. *)
Lemma execute_attack_no_client w :
  _client self = None -> call w = mkRun (Raise uninitialized_error) w [].
Proof. unfold call, execute_attack. by intros ->. Qed.

(** With a client the call is the rate-limit delay, once, and then the
    loop over [range(3)]. *)
Lemma execute_attack_client c w :
  _client self = Some c ->
  call w =
    let w1 := if (0 <? rate_limit self)%Z
              then later w (1 / inject_Z (rate_limit self)) else w in
    let r := attempts env c method (PyStr.lstrip ["/"%char] path)
                      payload headers 2 [0; 1; 2]%nat w1 in
    mkRun (outcome r) (final r) (rate_delay (rate_limit self) ++ events r).
Proof.
  intros Hc. unfold call, execute_attack, rate_delay. rewrite Hc.
  unfold bind. cbn [Nat.add seq].
  destruct (0 <? rate_limit self)%Z; cbn [sleep ret outcome final events];
    by destruct (attempts _ _ _ _ _ _ _ _ _).
Qed.

(** A call on a client that was closed: the rate-limit delay still takes
    place, then httpx refuses to send. *)
Lemma execute_attack_closed c w :
  _client self = Some c -> client_id c ∈ closed w ->
  outcome (call w) = Raise closed_client_error /\
  events (call w) = rate_delay (rate_limit self).
Proof.
  intros Hc Hcl. rewrite (execute_attack_client c) by done. cbn zeta.
  rewrite attempts_closed; [by rewrite app_nil_r|].
  by destruct (0 <? rate_limit self)%Z.
Qed.

(** A call inside the scope: see [attempts_run]. *)
Lemma execute_attack_run c w :
  _client self = Some c -> client_id c ∉ closed w ->
  exists m, (m < 3)%nat /\
    events (call w) =
      (rate_delay (rate_limit self)
         ++ attempt_trace (S m) (EvRequest (client_id c) rq))%list /\
    sent (final (call w)) = (sent w + S m)%nat /\
    closed (final (call w)) = closed w /\
    fresh (final (call w)) = fresh w /\
    (forall j, (j < m)%nat -> exists e,
       snd (env (sent w + j) c rq) = Failed (RequestError e)) /\
    settled env c rq (sent w + m) (S m = 3%nat) (call w).
Proof.
  intros Hc Hopen. rewrite (execute_attack_client c) by done. cbn zeta.
  set (w1 := if (0 <? rate_limit self)%Z then _ else w).
  assert (sent w1 = sent w /\ closed w1 = closed w /\ fresh w1 = fresh w)
    as (Hs & Hcl & Hf) by (subst w1; by destruct (0 <? rate_limit self)%Z).
  destruct (attempts_run env c method (PyStr.lstrip ["/"%char] path)
              payload headers 2 3 0 w1)
    as (m & Hm & Hev & Hs' & Hc' & Hf' & Hearlier & Hlast);
    [done | lia | by rewrite Hcl |].
  cbn [seq] in *. rewrite Hs in *.
  exists m. cbn [outcome final events]. rewrite Hev, Hs', Hc', Hf'.
  repeat split; try done.
Qed.

End Call.

(** ** What a run emits *)

Section Traces.

Implicit Types (limit : Z) (n c : nat) (rq : Request).

Lemma attempt_trace_S n ev :
  attempt_trace (S (S n)) ev = ev :: EvSleep (1 # 2) :: attempt_trace (S n) ev.
Proof. reflexivity. Qed.

Lemma requests_app evs evs' :
  requests (evs ++ evs')%list = (requests evs ++ requests evs')%list.
Proof. apply omap_app. Qed.

Lemma closes_app evs evs' :
  closes (evs ++ evs')%list = (closes evs ++ closes evs')%list.
Proof. apply omap_app. Qed.

Lemma requests_rate_delay limit : requests (rate_delay limit) = [].
Proof. unfold rate_delay. by destruct (0 <? limit)%Z. Qed.

Lemma closes_rate_delay limit : closes (rate_delay limit) = [].
Proof. unfold rate_delay. by destruct (0 <? limit)%Z. Qed.

Lemma requests_attempt_trace n c rq :
  requests (attempt_trace n (EvRequest c rq)) = replicate n rq.
Proof.
  induction n as [|[|n] IH]; [done..|].
  rewrite attempt_trace_S.
  transitivity (rq :: requests (attempt_trace (S n) (EvRequest c rq)));
    [reflexivity | by rewrite IH].
Qed.

Lemma closes_attempt_trace n c rq :
  closes (attempt_trace n (EvRequest c rq)) = [].
Proof.
  induction n as [|[|n] IH]; [done..|].
  rewrite attempt_trace_S.
  transitivity (closes (attempt_trace (S n) (EvRequest c rq)));
    [reflexivity | exact IH].
Qed.

(** Between two attempts lies the backoff and nothing else: in the
    attempts of a call a request never follows a request, and only half
    a second of sleep comes before a later one. *)
Lemma attempt_trace_lookup n ev i :
  (i < n)%nat ->
  attempt_trace n ev !! (2 * i)%nat = Some ev /\
  (S i < n -> attempt_trace n ev !! S (2 * i) = Some (EvSleep (1 # 2))).
Proof.
  revert i. induction n as [|[|n] IH]; intros i Hi; [lia| |].
  - assert (i = 0)%nat as -> by lia. split; [done|lia].
  - rewrite attempt_trace_S. destruct i as [|i]; [split; done|].
    replace (2 * S i)%nat with (S (S (2 * i))) by lia.
    destruct (IH i) as [H1 H2]; [lia|]. split; [done|].
    intros ?. apply H2. lia.
Qed.

End Traces.

(** ** The result dictionaries *)

Section Results.

Lemma response_dict_lookup response ms :
  response_dict response ms !! "status_code" = Some (VInt (status_code response)) /\
  response_dict response ms !! "response_body" = Some (VStr (text response)) /\
  response_dict response ms !! "elapsed_ms" = Some (VInt ms) /\
  response_dict response ms !! "headers" = Some (VDict (resp_headers response)) /\
  response_dict response ms !! "url" = Some (VStr (resp_url response)) /\
  response_dict response ms !! "error" = None.
Proof. unfold response_dict. repeat split; by simplify_map_eq. Qed.

Lemma failure_dict_lookup e ms url :
  failure_dict e ms url !! "status_code" = Some (VInt 0) /\
  failure_dict e ms url !! "response_body" = Some (VStr "") /\
  failure_dict e ms url !! "elapsed_ms" = Some (VInt ms) /\
  failure_dict e ms url !! "headers" = None /\
  failure_dict e ms url !! "url" = Some (VStr url) /\
  failure_dict e ms url !! "error" = Some (VStr e).
Proof. unfold failure_dict. repeat split; by simplify_map_eq. Qed.



End Results.

(** * The claims *)

(** ** Header construction *)

(** C6: the headers are a function of [auth_type] and [auth_token] alone.
    They always hold the fixed [User-Agent] and nothing besides it and
    [Authorization]; [bearer] and [oauth] with a non-empty token give
    [Authorization: Bearer <token>], [basic] with a non-empty token gives
    [Authorization: Basic <token>] with the token as it is; type [none],
    or any type with an empty or absent token, gives no [Authorization]. *)
Theorem build_headers_spec (self : Executor) :
  _build_headers self !! "User-Agent" = Some "ChaosKitten/0.1.0" /\
  (forall token, auth_type self ∈ ["bearer"; "oauth"] ->
     auth_token self = Some token -> token ≠ "" ->
     _build_headers self !! "Authorization" = Some ("Bearer " ++ token)) /\
  (forall token, auth_type self = "basic" ->
     auth_token self = Some token -> token ≠ "" ->
     _build_headers self !! "Authorization" = Some ("Basic " ++ token)) /\
  (auth_type self = "none" \/ auth_token self = None \/ auth_token self = Some "" ->
     _build_headers self !! "Authorization" = None) /\
  (forall k, is_Some (_build_headers self !! k) ->
     k = "User-Agent" \/ k = "Authorization") /\
  (forall other, auth_type other = auth_type self ->
     auth_token other = auth_token self ->
     _build_headers other = _build_headers self).
Proof.
  split; [apply build_headers_user_agent|].
  split; [intros; by apply build_headers_bearer|].
  split; [intros; by apply build_headers_basic|].
  split.
  { intros [Hn|Hk]; [|by apply build_headers_no_token].
    apply build_headers_other_type. rewrite Hn, !not_elem_of_cons.
    repeat split; auto using not_elem_of_nil. }
  split; [apply build_headers_keys|].
  intros other Ht Hk. unfold _build_headers. by rewrite Ht, Hk.
Qed.

Lemma build_headers_spec_witness :
  _build_headers Sample.target !! "Authorization" = Some "Bearer s3cret".
Proof.
  apply (build_headers_spec Sample.target); [|reflexivity|discriminate].
  apply elem_of_cons. left. reflexivity.
Defined.

(** ** Rate limiting *)

(** C1, as stated, fails: with the default limit of ten requests per
    second and a target that refuses every connection, the second attempt
    comes after the backoff of half a second, not after a delay of a
    tenth of a second. *)
Lemma retries_not_rate_limited :
  ~ delayed_before_each_attempt 10
      (events (execute_attack Sample.refusing Sample.entered
                 "GET" "/users" None None Sample.inside)).
Proof.
  intros H.
  destruct (H 3%nat 0%nat (request_of "GET" "/users" None None))
    as (j & Hj & Hs); [vm_compute; reflexivity|].
  injection Hj as <-. vm_compute in Hs. discriminate Hs.
Qed.

(** C1, amended: a call that holds an open client sleeps
    [1.0 / rate_limit] seconds once, before the first attempt, when the
    limit is positive, and not at all for the limit when it is zero or
    negative; the events after it are the attempts, one to three, with
    only the backoff between them. *)
Theorem rate_limit_delay_once (env : Env) (self : Executor)
    (method path : string) (payload : option (gmap string PyVal))
    (headers : option (gmap string string)) (c : Client) (w : World) :
  _client self = Some c -> client_id c ∉ closed w ->
  exists n, (1 <= n <= 3)%nat /\
    ((0 < rate_limit self)%Z ->
       events (execute_attack env self method path payload headers w) =
         EvSleep (1 / inject_Z (rate_limit self))
           :: attempt_trace n (EvRequest (client_id c)
                                 (request_of method path payload headers))) /\
    ((rate_limit self <= 0)%Z ->
       events (execute_attack env self method path payload headers w) =
         attempt_trace n (EvRequest (client_id c)
                            (request_of method path payload headers))).
Proof.
  intros Hc Hopen.
  destruct (execute_attack_run env self method path payload headers c w Hc Hopen)
    as (m & Hm & Hev & _).
  exists (S m). split; [lia|]. rewrite Hev. unfold rate_delay.
  split; intros Hl.
  - by rewrite (proj2 (Z.ltb_lt _ _) Hl).
  - by rewrite (proj2 (Z.ltb_ge _ _) Hl).
Qed.

Lemma rate_limit_delay_once_witness :
  exists n, (1 <= n <= 3)%nat /\
    ((0 < 10)%Z ->
       events (execute_attack Sample.refusing Sample.entered
                 "GET" "/users" None None Sample.inside) =
         EvSleep (1 / inject_Z 10)
           :: attempt_trace n (EvRequest 0 (request_of "GET" "/users" None None))) /\
    ((10 <= 0)%Z ->
       events (execute_attack Sample.refusing Sample.entered
                 "GET" "/users" None None Sample.inside) =
         attempt_trace n (EvRequest 0 (request_of "GET" "/users" None None))).
Proof.
  apply (rate_limit_delay_once Sample.refusing Sample.entered "GET" "/users"
           None None Sample.session Sample.inside).
  - reflexivity.
  - apply not_elem_of_empty.
Defined.

(** ** Use outside the scope *)

(** C2 at a call after the scope: [__aexit__] closes the client but leaves
    it in [self._client], so the guard of [execute_attack] lets the call
    pass.  The call sleeps for the rate limit and fails in httpx, with
    another error than the one of the guard. *)
Theorem execute_attack_after_exit (env : Env) :
  outcome (Sample.use_after_exit env Sample.outside) = Raise closed_client_error /\
  closed_client_error ≠ uninitialized_error /\
  events (Sample.use_after_exit env Sample.outside) =
    [EvOpen Sample.session; EvClose 0; EvSleep (1 # 10)].
Proof.
  split; [vm_compute; reflexivity|].
  split; [discriminate|].
  vm_compute; reflexivity.
Qed.

(** ** Retries *)

(** C3, as stated, fails: when every attempt times out, httpx raises
    [ReadTimeout] with an empty message, and the [error] of the result is
    the empty string. *)
Lemma timeout_leaves_error_empty :
  all_attempts_fail Sample.silent /\
  ~ exists d e,
      outcome (execute_attack Sample.silent Sample.entered
                 "GET" "/users" None None Sample.inside) = Ok (Some d) /\
      d !! "error" = Some (VStr e) /\ e ≠ "".
Proof.
  split; [intros n c rq; by eexists|].
  intros (d & e & Ho & He & Hne).
  assert (outcome (execute_attack Sample.silent Sample.entered
                     "GET" "/users" None None Sample.inside)
          = Ok (Some (failure_dict "" 30000 "users"))) as Hrun
    by (vm_compute; reflexivity).
  rewrite Hrun in Ho. injection Ho as <-.
  destruct (failure_dict_lookup "" 30000 "users") as (_&_&_&_&_&Herr).
  rewrite Herr in He. injection He as <-. by apply Hne.
Qed.

(** C3, amended: when the three attempts of a call all end in a
    [RequestError], the call makes exactly these three requests, with
    half a second of backoff after the first and after the second and
    none after the third, and returns the failure result: status [0],
    and as [error] the text of the last exception, whatever it is. *)
Theorem retries_exhausted (env : Env) (self : Executor)
    (method path : string) (payload : option (gmap string PyVal))
    (headers : option (gmap string string)) (c : Client) (w : World) :
  _client self = Some c -> client_id c ∉ closed w ->
  (forall j, (j < 3)%nat -> exists e,
     snd (env (sent w + j) c (request_of method path payload headers))
       = Failed (RequestError e)) ->
  exists e d,
    snd (env (sent w + 2) c (request_of method path payload headers))
      = Failed (RequestError e) /\
    outcome (execute_attack env self method path payload headers w) = Ok (Some d) /\
    d !! "status_code" = Some (VInt 0) /\
    d !! "error" = Some (VStr e) /\
    events (execute_attack env self method path payload headers w) =
      (rate_delay (rate_limit self) ++
       [EvRequest (client_id c) (request_of method path payload headers);
        EvSleep (1 # 2);
        EvRequest (client_id c) (request_of method path payload headers);
        EvSleep (1 # 2);
        EvRequest (client_id c) (request_of method path payload headers)])%list /\
    sent (final (execute_attack env self method path payload headers w))
      = (sent w + 3)%nat.
Proof.
  intros Hc Hopen Hfail.
  destruct (execute_attack_run env self method path payload headers c w Hc Hopen)
    as (m & Hm & Hev & Hs & _ & _ & _ & Hlast).
  unfold settled in Hlast.
  destruct (Hfail m Hm) as [e He]. rewrite He in Hlast.
  destruct Hlast as [Hm3 Ho]. assert (m = 2)%nat as -> by lia.
  exists e, (failure_dict e
    (Qtrunc (fst (env (sent w + 2) c (request_of method path payload headers))
             * inject_Z 1000)) (PyStr.lstrip ["/"%char] path)).
  destruct (failure_dict_lookup e
    (Qtrunc (fst (env (sent w + 2) c (request_of method path payload headers))
             * inject_Z 1000)) (PyStr.lstrip ["/"%char] path))
    as (Hst & _ & _ & _ & _ & Herr).
  repeat split; done.
Qed.

Lemma retries_exhausted_witness :
  exists e d,
    snd (Sample.refusing (0 + 2) Sample.session (request_of "GET" "/users" None None))
      = Failed (RequestError e) /\
    outcome (execute_attack Sample.refusing Sample.entered
               "GET" "/users" None None Sample.inside) = Ok (Some d) /\
    d !! "status_code" = Some (VInt 0) /\
    d !! "error" = Some (VStr e) /\
    events (execute_attack Sample.refusing Sample.entered
              "GET" "/users" None None Sample.inside) =
      (rate_delay 10 ++
       [EvRequest 0 (request_of "GET" "/users" None None);
        EvSleep (1 # 2);
        EvRequest 0 (request_of "GET" "/users" None None);
        EvSleep (1 # 2);
        EvRequest 0 (request_of "GET" "/users" None None)])%list /\
    sent (final (execute_attack Sample.refusing Sample.entered
                   "GET" "/users" None None Sample.inside)) = (0 + 3)%nat.
Proof.
  apply (retries_exhausted Sample.refusing Sample.entered "GET" "/users"
           None None Sample.session Sample.inside).
  - reflexivity.
  - apply not_elem_of_empty.
  - intros j _. eexists. reflexivity.
Defined.

(** ** Failures and results *)




(** C5: the first attempt that gets a response, of any status code, ends
    the call: the result holds the status code, body, headers and URL of
    that response and the time of that attempt, and no request follows. *)
Theorem response_ends_the_call (env : Env) (self : Executor)
    (method path : string) (payload : option (gmap string PyVal))
    (headers : option (gmap string string)) (c : Client) (w : World)
    (k : nat) (seconds : Q) (response : Response) :
  _client self = Some c -> client_id c ∉ closed w -> (k < 3)%nat ->
  (forall j, (j < k)%nat -> exists e,
     snd (env (sent w + j) c (request_of method path payload headers))
       = Failed (RequestError e)) ->
  env (sent w + k) c (request_of method path payload headers)
    = (seconds, Responded response) ->
  exists d,
    outcome (execute_attack env self method path payload headers w) = Ok (Some d) /\
    d !! "status_code" = Some (VInt (status_code response)) /\
    d !! "response_body" = Some (VStr (text response)) /\
    d !! "elapsed_ms" = Some (VInt (Qtrunc (seconds * inject_Z 1000))) /\
    d !! "headers" = Some (VDict (resp_headers response)) /\
    d !! "url" = Some (VStr (resp_url response)) /\
    events (execute_attack env self method path payload headers w)
      = (rate_delay (rate_limit self) ++
         attempt_trace (S k) (EvRequest (client_id c)
                                (request_of method path payload headers)))%list /\
    requests (events (execute_attack env self method path payload headers w))
      = replicate (S k) (request_of method path payload headers) /\
    sent (final (execute_attack env self method path payload headers w))
      = (sent w + S k)%nat.
Proof.
  intros Hc Hopen Hk Hfail Hresp.
  destruct (execute_attack_run env self method path payload headers c w Hc Hopen)
    as (m & Hm & Hev & Hs & _ & _ & Hearlier & Hlast).
  unfold settled in Hlast.
  assert (m = k) as ->.
  { destruct (lt_eq_lt_dec m k) as [[Hlt|Heq]|Hgt]; [|done|].
    - destruct (Hfail m Hlt) as [e He]. rewrite He in Hlast. lia.
    - destruct (Hearlier k Hgt) as [e He]. rewrite Hresp in He. discriminate. }
  rewrite Hresp in Hlast. cbn [fst snd] in Hlast.
  destruct (response_dict_lookup response (Qtrunc (seconds * inject_Z 1000)))
    as (?&?&?&?&?&_).
  eexists. split; [exact Hlast|].
  rewrite Hev, requests_app, requests_rate_delay, requests_attempt_trace.
  repeat split; done.
Qed.

Lemma response_ends_the_call_witness :
  exists d,
    outcome (execute_attack (Sample.answering 500) Sample.entered
               "GET" "/users" None None Sample.inside) = Ok (Some d) /\
    d !! "status_code" = Some (VInt 500) /\
    d !! "response_body" = Some (VStr "{}") /\
    d !! "elapsed_ms" = Some (VInt (Qtrunc ((1 # 8) * inject_Z 1000))) /\
    d !! "headers" = Some (VDict {[ "server" := "t" ]}) /\
    d !! "url" = Some (VStr "http://target.test/users") /\
    events (execute_attack (Sample.answering 500) Sample.entered
              "GET" "/users" None None Sample.inside)
      = (rate_delay 10 ++
         attempt_trace 1 (EvRequest 0 (request_of "GET" "/users" None None)))%list /\
    requests (events (execute_attack (Sample.answering 500) Sample.entered
                        "GET" "/users" None None Sample.inside))
      = replicate 1 (request_of "GET" "/users" None None) /\
    sent (final (execute_attack (Sample.answering 500) Sample.entered
                   "GET" "/users" None None Sample.inside)) = (0 + 1)%nat.
Proof.
  refine (response_ends_the_call (Sample.answering 500) Sample.entered
            "GET" "/users" None None Sample.session Sample.inside 0 (1 # 8)
            (mkResponse 500 "{}" {[ "server" := "t" ]} "http://target.test/users")
            _ _ _ _ _).
  - reflexivity.
  - apply not_elem_of_empty.
  - lia.
  - intros j Hj. lia.
  - reflexivity.
Defined.

(** ** Payload placement *)

Section Placement.

Lemma lower_upper_ascii c : lower_ascii (PyStr.upper_ascii c) = lower_ascii c.
Proof. by destruct c as [[] [] [] [] [] [] [] []]. Qed.

Lemma upper_lower_ascii c :
  PyStr.upper_ascii (lower_ascii c) = PyStr.upper_ascii c.
Proof. by destruct c as [[] [] [] [] [] [] [] []]. Qed.

Lemma lower_upper s : lower (PyStr.upper s) = lower s.
Proof. induction s as [|c s IH]; cbn; [done|]. by rewrite lower_upper_ascii, IH. Qed.

Lemma upper_lower s : PyStr.upper (lower s) = PyStr.upper s.
Proof. induction s as [|c s IH]; cbn; [done|]. by rewrite upper_lower_ascii, IH. Qed.

(** The test of the source, [method.upper() in ["POST", "PUT", "PATCH"]],
    is the comparison without regard to case. *)
Lemma upper_in_body_methods method :
  PyStr.upper method ∈ ["POST"; "PUT"; "PATCH"] <-> body_method method.
Proof.
  unfold body_method, same_ignoring_case. split.
  - intros Hin. exists (PyStr.upper method). by rewrite lower_upper.
  - intros (verb & Hin & Heq).
    assert (PyStr.upper verb = verb) as Hverb.
    { rewrite !elem_of_cons in Hin.
      destruct Hin as [->|[->|[->|Hin]]]; [done..|].
      by apply elem_of_nil in Hin. }
    by rewrite <- upper_lower, Heq, upper_lower, Hverb.
Qed.

Lemma request_kwargs_body method p headers :
  body_method method ->
  request_kwargs method (Some p) headers !! "json" = Some (KwPayload p) /\
  request_kwargs method (Some p) headers !! "params" = None.
Proof.
  intros Hm. apply upper_in_body_methods in Hm. unfold request_kwargs.
  rewrite (bool_decide_eq_true_2 _ Hm).
  destruct (dict_truthy headers); by simplify_map_eq.
Qed.

Lemma request_kwargs_query method p headers :
  ~ body_method method ->
  request_kwargs method (Some p) headers !! "params" = Some (KwPayload p) /\
  request_kwargs method (Some p) headers !! "json" = None.
Proof.
  intros Hm. rewrite <- upper_in_body_methods in Hm. unfold request_kwargs.
  rewrite (bool_decide_eq_false_2 _ Hm).
  destruct (dict_truthy headers); by simplify_map_eq.
Qed.

Lemma request_kwargs_no_payload method headers :
  request_kwargs method None headers !! "json" = None /\
  request_kwargs method None headers !! "params" = None.
Proof.
  unfold request_kwargs. destruct (dict_truthy headers); by simplify_map_eq.
Qed.

(** Every request of a call is the one made of its arguments. *)
Lemma execute_attack_requests env self method path payload headers w rq :
  rq ∈ requests (events (execute_attack env self method path payload headers w)) ->
  rq = request_of method path payload headers.
Proof.
  destruct (_client self) as [c|] eqn:Hc.
  - destruct (decide (client_id c ∈ closed w)) as [Hcl|Hopen].
    + destruct (execute_attack_closed env self method path payload headers
                  c w Hc Hcl) as [_ ->].
      rewrite requests_rate_delay. by intros ?%elem_of_nil.
    + destruct (execute_attack_run env self method path payload headers
                  c w Hc Hopen) as (m & _ & -> & _).
      rewrite requests_app, requests_rate_delay, requests_attempt_trace.
      by intros [-> _]%elem_of_replicate.
  - rewrite execute_attack_no_client by done. by intros ?%elem_of_nil.
Qed.

End Placement.

(** C7: for a method written in ASCII characters, as the methods of HTTP
    are: in every request of a call the payload, when there is one, is
    the [json] body if the method is POST, PUT or PATCH in any case of
    letters, and the query parameters for every other method; without
    payload the request has neither. *)
Theorem payload_placement (env : Env) (self : Executor)
    (method path : string) (payload : option (gmap string PyVal))
    (headers : option (gmap string string)) (w : World) (rq : Request) :
  PyStr.is_ascii method = true ->
  rq ∈ requests (events (execute_attack env self method path payload headers w)) ->
  match payload with
  | Some p =>
      (body_method method ->
         rq_kwargs rq !! "json" = Some (KwPayload p) /\
         rq_kwargs rq !! "params" = None) /\
      (~ body_method method ->
         rq_kwargs rq !! "params" = Some (KwPayload p) /\
         rq_kwargs rq !! "json" = None)
  | None =>
      rq_kwargs rq !! "json" = None /\ rq_kwargs rq !! "params" = None
  end.
Proof.
  intros _ ->%execute_attack_requests. cbn [request_of rq_kwargs].
  destruct payload as [p|].
  - split; [apply request_kwargs_body | apply request_kwargs_query].
  - apply request_kwargs_no_payload.
Qed.

Lemma payload_placement_witness :
  (body_method "patch" ->
     rq_kwargs (request_of "patch" "/users/7" (Some {[ "admin" := PBool true ]}) None)
       !! "json" = Some (KwPayload {[ "admin" := PBool true ]}) /\
     rq_kwargs (request_of "patch" "/users/7" (Some {[ "admin" := PBool true ]}) None)
       !! "params" = None) /\
  (~ body_method "patch" ->
     rq_kwargs (request_of "patch" "/users/7" (Some {[ "admin" := PBool true ]}) None)
       !! "params" = Some (KwPayload {[ "admin" := PBool true ]}) /\
     rq_kwargs (request_of "patch" "/users/7" (Some {[ "admin" := PBool true ]}) None)
       !! "json" = None).
Proof.
  refine (payload_placement (Sample.answering 200) Sample.entered
            "patch" "/users/7" (Some {[ "admin" := PBool true ]}) None
            Sample.inside _ _ _).
  - reflexivity.
  - vm_compute. apply list_elem_of_here.
Defined.

(** ** The fields of a result *)

(** C8: a call that returns a result returned it for its last request,
    number [m] of at most three, and that request decides every field.
    If it got a response, the result has the status, headers, body and
    URL of the response and no [error].  If it failed, it was the third
    attempt, and the result has status [0], the text of the exception as
    [error], no [headers], the empty body and the path without leading
    slashes as [url].  So the result has an [error] exactly when its
    status is [0], and [headers] exactly when a response was obtained;
    and [elapsed_ms] is the time of that last request alone, whatever the
    earlier attempts and the sleeps took.  HTTP status codes are taken to
    have three digits. *)
Theorem result_fields (env : Env) (self : Executor)
    (method path : string) (payload : option (gmap string PyVal))
    (headers : option (gmap string string)) (c : Client) (w : World)
    (d : gmap string Value) :
  _client self = Some c -> http_status_codes env ->
  outcome (execute_attack env self method path payload headers w) = Ok (Some d) ->
  exists m, (m < 3)%nat /\
    sent (final (execute_attack env self method path payload headers w))
      = (sent w + S m)%nat /\
    match snd (env (sent w + m) c (request_of method path payload headers)) with
    | Responded response =>
        d !! "status_code" = Some (VInt (status_code response)) /\
        status_code response ≠ 0%Z /\
        d !! "error" = None /\
        d !! "headers" = Some (VDict (resp_headers response)) /\
        d !! "response_body" = Some (VStr (text response)) /\
        d !! "url" = Some (VStr (resp_url response))
    | Failed e =>
        exists msg, e = RequestError msg /\ m = 2%nat /\
        d !! "status_code" = Some (VInt 0) /\
        d !! "error" = Some (VStr msg) /\
        d !! "headers" = None /\
        d !! "response_body" = Some (VStr "") /\
        d !! "url" = Some (VStr (PyStr.lstrip ["/"%char] path))
    end /\
    (is_Some (d !! "error") <-> d !! "status_code" = Some (VInt 0)) /\
    (is_Some (d !! "headers") <->
       exists response,
         snd (env (sent w + m) c (request_of method path payload headers))
           = Responded response) /\
    (d !! "status_code" = Some (VInt 0) ->
       d !! "response_body" = Some (VStr "") /\
       d !! "url" = Some (VStr (PyStr.lstrip ["/"%char] path))) /\
    d !! "elapsed_ms" =
      Some (VInt (Qtrunc
        (fst (env (sent w + m) c (request_of method path payload headers))
         * inject_Z 1000))).
Proof.
  intros Hc Hcodes Hd.
  destruct (decide (client_id c ∈ closed w)) as [Hcl|Hopen].
  { destruct (execute_attack_closed env self method path payload headers
                c w Hc Hcl) as [Ho _]. congruence. }
  destruct (execute_attack_run env self method path payload headers c w Hc Hopen)
    as (m & Hm & _ & Hs & _ & _ & _ & Hlast).
  exists m. split; [done|]. split; [done|].
  unfold settled in Hlast.
  destruct (snd (env (sent w + m) c (request_of method path payload headers)))
    as [response|[msg|msg|cls msg]] eqn:Hout; try congruence.
  - assert (d = response_dict response (Qtrunc
      (fst (env (sent w + m) c (request_of method path payload headers))
       * inject_Z 1000))) as -> by congruence.
    pose proof (Hcodes _ _ _ _ Hout) as Hcode.
    destruct (response_dict_lookup response (Qtrunc
      (fst (env (sent w + m) c (request_of method path payload headers))
       * inject_Z 1000))) as (Hst & Hb & Hms & Hh & Hu & Herr).
    rewrite Hst, Hb, Hms, Hh, Hu, Herr.
    split; [split; [done|]; split; [lia|done] |].
    split; [split; [by intros [? [=]] | intros [= Hz]; lia] |].
    split; [split; eauto |].
    split; [intros [= Hz]; lia | done].
  - destruct Hlast as [Hm3 Ho]. cbn [request_of rq_url] in Ho.
    assert (d = failure_dict msg (Qtrunc
      (fst (env (sent w + m) c (request_of method path payload headers))
       * inject_Z 1000)) (PyStr.lstrip ["/"%char] path)) as -> by congruence.
    destruct (failure_dict_lookup msg (Qtrunc
      (fst (env (sent w + m) c (request_of method path payload headers))
       * inject_Z 1000)) (PyStr.lstrip ["/"%char] path))
      as (Hst & Hb & Hms & Hh & Hu & Herr).
    rewrite Hst, Hb, Hms, Hh, Hu, Herr.
    split; [exists msg; split; [done|]; split; [lia|done] |].
    split; [split; eauto |].
    split; [split; [by intros [? [=]] | by intros [? [=]]] |].
    split; done.
Qed.

Lemma result_fields_witness :
  (* a target that refuses every connection: the failure result *)
  (
  exists m, (m < 3)%nat /\
    sent (final (execute_attack Sample.refusing Sample.entered "GET" "/users" None None
                   Sample.inside)) = (sent Sample.inside + S m)%nat /\
    match snd (Sample.refusing (sent Sample.inside + m)%nat Sample.session
                 (request_of "GET" "/users" None None)) with
    | Responded response =>
        failure_dict "All connection attempts failed" 250 "users" !! "status_code" = Some (VInt (status_code response)) /\
        status_code response ≠ 0%Z /\
        failure_dict "All connection attempts failed" 250 "users" !! "error" = None /\
        failure_dict "All connection attempts failed" 250 "users" !! "headers" = Some (VDict (resp_headers response)) /\
        failure_dict "All connection attempts failed" 250 "users" !! "response_body" = Some (VStr (text response)) /\
        failure_dict "All connection attempts failed" 250 "users" !! "url" = Some (VStr (resp_url response))
    | Failed e =>
        exists msg, e = RequestError msg /\ m = 2%nat /\
        failure_dict "All connection attempts failed" 250 "users" !! "status_code" = Some (VInt 0) /\
        failure_dict "All connection attempts failed" 250 "users" !! "error" = Some (VStr msg) /\
        failure_dict "All connection attempts failed" 250 "users" !! "headers" = None /\
        failure_dict "All connection attempts failed" 250 "users" !! "response_body" = Some (VStr "") /\
        failure_dict "All connection attempts failed" 250 "users" !! "url" = Some (VStr (PyStr.lstrip ["/"%char] "/users"))
    end /\
    (is_Some (failure_dict "All connection attempts failed" 250 "users" !! "error") <-> failure_dict "All connection attempts failed" 250 "users" !! "status_code" = Some (VInt 0)) /\
    (is_Some (failure_dict "All connection attempts failed" 250 "users" !! "headers") <->
       exists response,
         snd (Sample.refusing (sent Sample.inside + m)%nat Sample.session
                (request_of "GET" "/users" None None)) = Responded response) /\
    (failure_dict "All connection attempts failed" 250 "users" !! "status_code" = Some (VInt 0) ->
       failure_dict "All connection attempts failed" 250 "users" !! "response_body" = Some (VStr "") /\
       failure_dict "All connection attempts failed" 250 "users" !! "url" = Some (VStr (PyStr.lstrip ["/"%char] "/users"))) /\
    failure_dict "All connection attempts failed" 250 "users" !! "elapsed_ms" =
      Some (VInt (Qtrunc
        (fst (Sample.refusing (sent Sample.inside + m)%nat Sample.session
                (request_of "GET" "/users" None None)) * inject_Z 1000)))) /\
  (* a target that answers the third attempt: the result of the response *)
  (
  exists m, (m < 3)%nat /\
    sent (final (execute_attack Sample.waking_up Sample.entered "GET" "/users" None None
                   Sample.inside)) = (sent Sample.inside + S m)%nat /\
    match snd (Sample.waking_up (sent Sample.inside + m)%nat Sample.session
                 (request_of "GET" "/users" None None)) with
    | Responded response =>
        response_dict (mkResponse 200 "{}" {[ "server" := "t" ]} "http://target.test/users") 125 !! "status_code" = Some (VInt (status_code response)) /\
        status_code response ≠ 0%Z /\
        response_dict (mkResponse 200 "{}" {[ "server" := "t" ]} "http://target.test/users") 125 !! "error" = None /\
        response_dict (mkResponse 200 "{}" {[ "server" := "t" ]} "http://target.test/users") 125 !! "headers" = Some (VDict (resp_headers response)) /\
        response_dict (mkResponse 200 "{}" {[ "server" := "t" ]} "http://target.test/users") 125 !! "response_body" = Some (VStr (text response)) /\
        response_dict (mkResponse 200 "{}" {[ "server" := "t" ]} "http://target.test/users") 125 !! "url" = Some (VStr (resp_url response))
    | Failed e =>
        exists msg, e = RequestError msg /\ m = 2%nat /\
        response_dict (mkResponse 200 "{}" {[ "server" := "t" ]} "http://target.test/users") 125 !! "status_code" = Some (VInt 0) /\
        response_dict (mkResponse 200 "{}" {[ "server" := "t" ]} "http://target.test/users") 125 !! "error" = Some (VStr msg) /\
        response_dict (mkResponse 200 "{}" {[ "server" := "t" ]} "http://target.test/users") 125 !! "headers" = None /\
        response_dict (mkResponse 200 "{}" {[ "server" := "t" ]} "http://target.test/users") 125 !! "response_body" = Some (VStr "") /\
        response_dict (mkResponse 200 "{}" {[ "server" := "t" ]} "http://target.test/users") 125 !! "url" = Some (VStr (PyStr.lstrip ["/"%char] "/users"))
    end /\
    (is_Some (response_dict (mkResponse 200 "{}" {[ "server" := "t" ]} "http://target.test/users") 125 !! "error") <-> response_dict (mkResponse 200 "{}" {[ "server" := "t" ]} "http://target.test/users") 125 !! "status_code" = Some (VInt 0)) /\
    (is_Some (response_dict (mkResponse 200 "{}" {[ "server" := "t" ]} "http://target.test/users") 125 !! "headers") <->
       exists response,
         snd (Sample.waking_up (sent Sample.inside + m)%nat Sample.session
                (request_of "GET" "/users" None None)) = Responded response) /\
    (response_dict (mkResponse 200 "{}" {[ "server" := "t" ]} "http://target.test/users") 125 !! "status_code" = Some (VInt 0) ->
       response_dict (mkResponse 200 "{}" {[ "server" := "t" ]} "http://target.test/users") 125 !! "response_body" = Some (VStr "") /\
       response_dict (mkResponse 200 "{}" {[ "server" := "t" ]} "http://target.test/users") 125 !! "url" = Some (VStr (PyStr.lstrip ["/"%char] "/users"))) /\
    response_dict (mkResponse 200 "{}" {[ "server" := "t" ]} "http://target.test/users") 125 !! "elapsed_ms" =
      Some (VInt (Qtrunc
        (fst (Sample.waking_up (sent Sample.inside + m)%nat Sample.session
                (request_of "GET" "/users" None None)) * inject_Z 1000)))).
Proof.
  split.
  - refine (result_fields Sample.refusing Sample.entered "GET" "/users" None None
              Sample.session Sample.inside
              (failure_dict "All connection attempts failed" 250 "users") _ _ _).
    + reflexivity.
    + intros n c rq response [=].
    + vm_compute. reflexivity.
  - refine (result_fields Sample.waking_up Sample.entered "GET" "/users" None None
              Sample.session Sample.inside
              (response_dict (mkResponse 200 "{}" {[ "server" := "t" ]}
                                "http://target.test/users") 125) _ _ _).
    + reflexivity.
    + intros n c rq response.
      unfold Sample.waking_up, Sample.refusing, Sample.answering.
      destruct (n <? 2)%nat; cbn [snd]; [discriminate|].
      intros [= <-]. cbn [status_code]. lia.
    + vm_compute. reflexivity.
Defined.

(** ** The scope *)

Section Scope.

Variable env : Env.

(** A call closes nothing and creates no client, whatever the executor
    and the world. *)
Lemma execute_attack_frame self method path payload headers w :
  closes (events (execute_attack env self method path payload headers w)) = [] /\
  closed (final (execute_attack env self method path payload headers w))
    = closed w /\
  fresh (final (execute_attack env self method path payload headers w))
    = fresh w.
Proof.
  destruct (_client self) as [c|] eqn:Hc.
  - destruct (decide (client_id c ∈ closed w)) as [Hcl|Hopen].
    + rewrite (execute_attack_client env self method path payload headers c)
        by done.
      cbn zeta. rewrite attempts_closed
        by (by destruct (0 <? rate_limit self)%Z).
      cbn [outcome final events]. rewrite app_nil_r, closes_rate_delay.
      by destruct (0 <? rate_limit self)%Z.
    + destruct (execute_attack_run env self method path payload headers
                  c w Hc Hopen) as (m & _ & -> & _ & -> & -> & _).
      by rewrite closes_app, closes_rate_delay, closes_attempt_trace.
  - by rewrite execute_attack_no_client.
Qed.

(** So does a block of calls. *)
Lemma run_block_frame self block : forall w,
  closes (events (run_block env self block w)) = [] /\
  closed (final (run_block env self block w)) = closed w /\
  fresh (final (run_block env self block w)) = fresh w.
Proof.
  induction block as [|st block IH]; intros w; [done|].
  cbn [run_block]. unfold bind.
  destruct (execute_attack_frame (default self (st_target st)) (st_method st)
              (st_path st) (st_payload st) (st_headers st) w)
    as (Hev & Hcl & Hf).
  destruct (outcome (execute_attack env _ _ _ _ _ w)) as [d|e].
  - cbn [outcome final events].
    destruct (IH (final (execute_attack env (default self (st_target st))
                   (st_method st) (st_path st) (st_payload st)
                   (st_headers st) w))) as (Hev' & Hcl' & Hf').
    by rewrite closes_app, Hev, Hev', Hcl', Hf', Hcl, Hf.
  - done.
Qed.

End Scope.

(** C9: [async with executor: block] closes the client it created at its
    entry exactly once, as its last effect, whatever the block is and
    however it is left; the exception of the block, if any, is raised
    again after the client is closed. *)
Theorem scope_exit_closes_once (env : Env) (executor : Executor)
    (block : list Stmt) (w : World) :
  let session := mkClient (fresh w) (base_url executor) (timeout executor)
                          (_build_headers executor) in
  let self := set_client executor (Some session) in
  let inner := run_block env self block
                 (mkWorld (now w) (sent w) (closed w ∖ {[fresh w]}) (S (fresh w))) in
  events (async_with env executor block w)
    = (EvOpen session :: events inner ++ [EvClose (client_id session)])%list /\
  closes (events (async_with env executor block w)) = [client_id session] /\
  client_id session ∈ closed (final (async_with env executor block w)) /\
  outcome (async_with env executor block w) = outcome inner.
Proof.
  cbn zeta.
  set (session := mkClient _ _ _ _).
  set (w1 := mkWorld _ _ _ _).
  destruct (run_block_frame env (set_client executor (Some session)) block w1)
    as (Hev & Hcl & _).
  assert (async_with env executor block w =
          mkRun (outcome (run_block env (set_client executor (Some session)) block w1))
                (mkWorld (now (final (run_block env (set_client executor (Some session)) block w1)))
                         (sent (final (run_block env (set_client executor (Some session)) block w1)))
                         ({[client_id session]} ∪ closed (final (run_block env (set_client executor (Some session)) block w1)))
                         (fresh (final (run_block env (set_client executor (Some session)) block w1))))
                (EvOpen session :: events (run_block env (set_client executor (Some session)) block w1)
                   ++ [EvClose (client_id session)])%list) as ->
    by reflexivity.
  cbn [outcome final events closed].
  split; [done|]. split; [|split; [|done]].
  - change (closes (EvOpen session :: ?l)) with (closes l).
    by rewrite closes_app, Hev.
  - apply elem_of_union_l, elem_of_singleton. reflexivity.
Qed.

(** ** Empty headers *)

Section EmptyHeaders.

Variable env : Env.

Lemma request_kwargs_empty_headers method payload :
  request_kwargs method payload (Some ∅) = request_kwargs method payload None.
Proof. reflexivity. Qed.

Lemma attempts_empty_headers client method url payload max_retries range :
  forall w,
    attempts env client method url payload (Some ∅) max_retries range w =
    attempts env client method url payload None max_retries range w.
Proof.
  induction range as [|attempt range IH]; intros w; [reflexivity|].
  rewrite !attempts_cons, request_kwargs_empty_headers.
  destruct (bool_decide _); [reflexivity|]. cbn zeta.
  destruct (snd _) as [response|[msg|msg|cls msg]]; try reflexivity.
  destruct (attempt =? max_retries)%nat; [reflexivity|].
  by rewrite IH.
Qed.

End EmptyHeaders.

(** C10: a call with the empty dictionary as [headers] is the call without
    [headers]: the same requests and delays, the same result, the same
    world after it. *)
Theorem empty_headers_as_absent (env : Env) (self : Executor)
    (method path : string) (payload : option (gmap string PyVal)) (w : World) :
  execute_attack env self method path payload (Some ∅) w =
  execute_attack env self method path payload None w.
Proof.
  destruct (_client self) as [c|] eqn:Hc.
  - rewrite !(execute_attack_client env self method path payload _ c) by done.
    cbn zeta. by rewrite attempts_empty_headers.
  - by rewrite !execute_attack_no_client.
Qed.

(** * Further properties *)

(** ** Paths and base URLs *)

Section Slashes.

Lemma slash_in_chars c : c ∈ ["/"%char] <-> c = "/"%char.
Proof. apply list_elem_of_singleton. Qed.

Lemma string_app_nil_inv (s t : string) : s ++ t = "" -> s = "" /\ t = "".
Proof. destruct s; [done|discriminate]. Qed.

Lemma rstrip_split s : exists n, s = PyStr.rstrip ["/"%char] s ++ slashes n.
Proof.
  induction s as [|c s [n IH]]; [by exists 0%nat|].
  cbn [PyStr.rstrip].
  destruct (PyStr.rstrip ["/"%char] s) as [|a r] eqn:Hr.
  - cbn in IH. subst s. case_bool_decide as Hc.
    + apply slash_in_chars in Hc as ->. by exists (S n).
    + by exists n.
  - exists n. cbn. by rewrite IH at 1.
Qed.

Lemma rstrip_no_trailing_slash s t : PyStr.rstrip ["/"%char] s ≠ t ++ "/".
Proof.
  revert t. induction s as [|c s IH]; intros t; cbn [PyStr.rstrip].
  - by destruct t.
  - destruct (PyStr.rstrip ["/"%char] s) as [|a r] eqn:Hr.
    + case_bool_decide as Hc; [by destruct t|].
      destruct t as [|b t]; cbn.
      * intros [= ->]. apply Hc, slash_in_chars. reflexivity.
      * intros [= _ Ht]. by destruct t.
    + destruct t as [|b t]; cbn; [discriminate|].
      intros [= _ Ht]. by apply (IH t).
Qed.

Lemma lstrip_split s : exists n, s = slashes n ++ PyStr.lstrip ["/"%char] s.
Proof.
  induction s as [|c s [n IH]]; [by exists 0%nat|].
  cbn [PyStr.lstrip]. case_bool_decide as Hc.
  - apply slash_in_chars in Hc as ->. exists (S n).
    change (String "/" s = String "/" (slashes n ++ PyStr.lstrip ["/"%char] s)).
    by f_equal.
  - by exists 0%nat.
Qed.

Lemma lstrip_no_leading_slash s t : PyStr.lstrip ["/"%char] s ≠ String "/" t.
Proof.
  induction s as [|c s IH]; cbn [PyStr.lstrip]; [discriminate|].
  case_bool_decide as Hc; [done|].
  intros [= -> _]. apply Hc, slash_in_chars. reflexivity.
Qed.

End Slashes.

(** X1: the constructor keeps the base URL without its trailing slashes,
    all of them: the argument is the stored URL followed by slashes only,
    and the stored URL does not end in a slash.  A new executor has no
    client. *)
Theorem init_strips_trailing_slashes (url kind : string)
    (token : option string) (limit tmo : Z) :
  (exists n, url = base_url (__init__ url kind token limit tmo) ++ slashes n) /\
  (forall s, base_url (__init__ url kind token limit tmo) ≠ s ++ "/") /\
  _client (__init__ url kind token limit tmo) = None.
Proof.
  split; [apply rstrip_split|]. split; [|done].
  intros s. apply rstrip_no_trailing_slash.
Qed.

(** X2: every request of a call goes out with the method as the caller
    wrote it, not upper-cased, and with the path without its leading
    slashes, all of them. *)
Theorem request_method_and_url (env : Env) (self : Executor)
    (method path : string) (payload : option (gmap string PyVal))
    (headers : option (gmap string string)) (w : World) (rq : Request) :
  rq ∈ requests (events (execute_attack env self method path payload headers w)) ->
  rq_method rq = method /\
  (exists n, path = slashes n ++ rq_url rq) /\
  (forall s, rq_url rq ≠ String "/" s).
Proof.
  intros ->%execute_attack_requests. cbn [request_of rq_method rq_url].
  split; [done|]. split; [apply lstrip_split|].
  intros s. apply lstrip_no_leading_slash.
Qed.

Lemma request_method_and_url_witness :
  rq_method (request_of "delete" "//users/7" None None) = "delete" /\
  (exists n, "//users/7" = slashes n ++ rq_url (request_of "delete" "//users/7" None None)) /\
  (forall s, rq_url (request_of "delete" "//users/7" None None) ≠ String "/" s).
Proof.
  refine (request_method_and_url (Sample.answering 200) Sample.entered
            "delete" "//users/7" None None Sample.inside _ _).
  vm_compute. apply list_elem_of_here.
Defined.

(** ** Keyword arguments *)

Section Kwargs.

Lemma dict_truthy_Some {V} (d : gmap string V) :
  dict_truthy (Some d) = true <-> d ≠ ∅.
Proof.
  unfold dict_truthy. rewrite negb_true_iff, bool_decide_eq_false.
  by rewrite map_size_empty_iff.
Qed.

Lemma request_kwargs_headers method payload (h : gmap string string) :
  h ≠ ∅ ->
  request_kwargs method payload (Some h) !! "headers" = Some (KwHeaders h).
Proof.
  intros Hne. apply dict_truthy_Some in Hne. unfold request_kwargs.
  rewrite Hne. cbn [default].
  destruct payload as [p|]; [case_bool_decide|]; by simplify_map_eq.
Qed.

Lemma request_kwargs_no_headers method payload headers :
  headers = None \/ headers = Some ∅ ->
  request_kwargs method payload headers !! "headers" = None.
Proof.
  intros [->| ->]; unfold request_kwargs; cbn;
    (destruct payload as [p|]; [case_bool_decide|]; by simplify_map_eq).
Qed.

Lemma request_kwargs_keys method payload headers (k : string) :
  is_Some (request_kwargs method payload headers !! k) ->
  k ∈ ["headers"; "json"; "params"].
Proof.
  unfold request_kwargs. intros [v Hv].
  destruct (decide (k = "headers")) as [->|]; [set_solver|].
  destruct (decide (k = "json")) as [->|]; [set_solver|].
  destruct (decide (k = "params")) as [->|]; [set_solver|].
  destruct (dict_truthy headers), payload as [p|];
    try case_bool_decide; by simplify_map_eq.
Qed.

End Kwargs.

(** X3: headers given to a call, when the dictionary is not empty, go
    into every request as they are, under [headers]; without them, or with
    the empty dictionary, the request has no [headers].  A request never
    has keyword arguments other than [headers], [json] and [params]. *)
Theorem request_headers_kwarg (env : Env) (self : Executor)
    (method path : string) (payload : option (gmap string PyVal))
    (headers : option (gmap string string)) (w : World) (rq : Request) :
  rq ∈ requests (events (execute_attack env self method path payload headers w)) ->
  (forall h, headers = Some h -> h ≠ ∅ ->
     rq_kwargs rq !! "headers" = Some (KwHeaders h)) /\
  (headers = None \/ headers = Some ∅ -> rq_kwargs rq !! "headers" = None) /\
  (forall k, is_Some (rq_kwargs rq !! k) -> k ∈ ["headers"; "json"; "params"]).
Proof.
  intros ->%execute_attack_requests. cbn [request_of rq_kwargs].
  split; [intros h -> Hne; by apply request_kwargs_headers|].
  split; [apply request_kwargs_no_headers | apply request_kwargs_keys].
Qed.

Lemma request_headers_kwarg_witness :
  (forall h, Some ({[ "X-Trace" := "1" ]} : gmap string string) = Some h -> h ≠ ∅ ->
     rq_kwargs (request_of "GET" "/users" None (Some {[ "X-Trace" := "1" ]}))
       !! "headers" = Some (KwHeaders h)) /\
  (Some ({[ "X-Trace" := "1" ]} : gmap string string) = None \/
   Some ({[ "X-Trace" := "1" ]} : gmap string string) = Some ∅ ->
     rq_kwargs (request_of "GET" "/users" None (Some {[ "X-Trace" := "1" ]}))
       !! "headers" = None) /\
  (forall k,
     is_Some (rq_kwargs (request_of "GET" "/users" None (Some {[ "X-Trace" := "1" ]}))
                !! k) ->
     k ∈ ["headers"; "json"; "params"]).
Proof.
  refine (request_headers_kwarg (Sample.answering 200) Sample.entered
            "GET" "/users" None (Some {[ "X-Trace" := "1" ]}) Sample.inside _ _).
  vm_compute. apply list_elem_of_here.
Defined.

(** ** Calls and scopes *)

Section Calls.

Variable env : Env.

(** A call on a closed client leaves the world as it is, but for the time
    of the rate-limit delay. *)
Lemma execute_attack_closed_final self method path payload headers c w :
  _client self = Some c -> client_id c ∈ closed w ->
  sent (final (execute_attack env self method path payload headers w)) = sent w /\
  closed (final (execute_attack env self method path payload headers w)) = closed w.
Proof.
  intros Hc Hcl.
  rewrite (execute_attack_client env self method path payload headers c) by done.
  cbn zeta. rewrite attempts_closed by (by destruct (0 <? rate_limit self)%Z).
  cbn [final]. by destruct (0 <? rate_limit self)%Z.
Qed.

(** The requests of one call: none without an open client, one to three
    with it. *)
Lemma execute_attack_sent self method path payload headers w :
  (sent w <= sent (final (execute_attack env self method path payload headers w))
          <= sent w + 3)%nat.
Proof.
  destruct (_client self) as [c|] eqn:Hc.
  - destruct (decide (client_id c ∈ closed w)) as [Hcl|Hopen].
    + destruct (execute_attack_closed_final self method path payload headers
                  c w Hc Hcl) as [-> _]. lia.
    + destruct (execute_attack_run env self method path payload headers
                  c w Hc Hopen) as (m & Hm & _ & -> & _). lia.
  - rewrite execute_attack_no_client by done. cbn. lia.
Qed.

(** Inside the scope, with a network that fails with [RequestError]s
    only, a call returns a result. *)
Lemma execute_attack_returns self method path payload headers c w :
  _client self = Some c -> client_id c ∉ closed w ->
  only_network_failures env ->
  (exists d, outcome (execute_attack env self method path payload headers w)
               = Ok (Some d)) /\
  (sent w < sent (final (execute_attack env self method path payload headers w)))%nat /\
  closed (final (execute_attack env self method path payload headers w)) = closed w.
Proof.
  intros Hc Hopen Hnet.
  destruct (execute_attack_run env self method path payload headers c w Hc Hopen)
    as (m & _ & _ & -> & -> & _ & _ & Hlast).
  split; [|split; [lia|done]].
  unfold settled in Hlast.
  destruct (snd (env (sent w + m) c (request_of method path payload headers)))
    as [response|e] eqn:Hout; [eauto|].
  destruct (Hnet _ _ _ _ Hout) as [msg ->].
  destruct Hlast as [_ ->]. eauto.
Qed.

(** [async with], effect by effect. *)
Lemma async_with_unfold executor block w :
  let session := mkClient (fresh w) (base_url executor) (timeout executor)
                          (_build_headers executor) in
  let inner := run_block env (set_client executor (Some session)) block
                 (mkWorld (now w) (sent w) (closed w ∖ {[fresh w]}) (S (fresh w))) in
  async_with env executor block w =
    mkRun (outcome inner)
          (mkWorld (now (final inner)) (sent (final inner))
                   ({[fresh w]} ∪ closed (final inner)) (fresh (final inner)))
          (EvOpen session :: events inner ++ [EvClose (fresh w)])%list.
Proof. reflexivity. Qed.

(** The requests of a block: at most three for each of its calls. *)
Lemma run_block_sent self block : forall w,
  (sent w <= sent (final (run_block env self block w))
          <= sent w + 3 * length block)%nat.
Proof.
  induction block as [|st block IH]; intros w; [cbn; lia|].
  cbn [run_block length]. unfold bind.
  pose proof (execute_attack_sent (default self (st_target st)) (st_method st)
                (st_path st) (st_payload st) (st_headers st) w) as Hcall.
  destruct (outcome (execute_attack env _ _ _ _ _ w)) as [d|e].
  - cbn [final].
    pose proof (IH (final (execute_attack env (default self (st_target st))
                     (st_method st) (st_path st) (st_payload st)
                     (st_headers st) w))) as Hrest.
    lia.
  - cbn [final]. lia.
Qed.

(** A block of calls on the executor of the scope, with a network that
    fails with [RequestError]s only, runs to its end. *)
Lemma run_block_completes self c block : forall w,
  _client self = Some c -> client_id c ∉ closed w ->
  only_network_failures env ->
  Forall (fun st => st_target st = None) block ->
  outcome (run_block env self block w) = Ok tt /\
  (sent w + length block <= sent (final (run_block env self block w)))%nat.
Proof.
  induction block as [|st block IH]; intros w Hc Hopen Hnet Hself;
    [split; [done | cbn; lia]|].
  apply Forall_cons in Hself as [Hst Hself].
  cbn [run_block length]. unfold bind. rewrite Hst. cbn [default].
  destruct (execute_attack_returns self (st_method st) (st_path st)
              (st_payload st) (st_headers st) c w Hc Hopen Hnet)
    as ([d Hd] & Hsent & Hcl).
  rewrite Hd. cbn [outcome final].
  destruct (IH (final (execute_attack env self (st_method st) (st_path st)
                  (st_payload st) (st_headers st) w)))
    as [Ho Hs]; [done | by rewrite Hcl | done | done |].
  split; [done | lia].
Qed.

End Calls.

(** X4: [execute_attack] never returns [None]: whatever the executor, the
    arguments and the network, a call that returns gives back a
    dictionary, because the last value of [attempt] is [max_retries]. *)
Theorem execute_attack_never_none (env : Env) (self : Executor)
    (method path : string) (payload : option (gmap string PyVal))
    (headers : option (gmap string string)) (w : World) :
  outcome (execute_attack env self method path payload headers w) ≠ Ok None.
Proof.
  destruct (_client self) as [c|] eqn:Hc.
  - destruct (decide (client_id c ∈ closed w)) as [Hcl|Hopen].
    + destruct (execute_attack_closed env self method path payload headers
                  c w Hc Hcl) as [-> _]. discriminate.
    + destruct (execute_attack_run env self method path payload headers
                  c w Hc Hopen) as (m & _ & _ & _ & _ & _ & _ & Hlast).
      unfold settled in Hlast.
      destruct (snd (env (sent w + m) c (request_of method path payload headers)))
        as [response|[msg|msg|cls msg]]; try (rewrite Hlast; discriminate).
      destruct Hlast as [_ ->]. discriminate.
  - rewrite execute_attack_no_client by done. discriminate.
Qed.

(** X5: an executor that was constructed and never entered rejects every
    call with the error of the guard, at once: no delay, no request, the
    world as it was. *)
Theorem call_before_entry_rejected (env : Env) (url kind : string)
    (token : option string) (limit tmo : Z) (method path : string)
    (payload : option (gmap string PyVal))
    (headers : option (gmap string string)) (w : World) :
  execute_attack env (__init__ url kind token limit tmo)
                 method path payload headers w
    = mkRun (Raise uninitialized_error) w [].
Proof. by apply execute_attack_no_client. Qed.

(** X6: after [async with executor: block], however the block ended, a
    call on the executor is not stopped by the guard: it takes the
    rate-limit delay, sends no request, and ends in an exception that is
    not the one of the guard. *)
Theorem call_after_scope_fails_late (env : Env) (executor : Executor)
    (block : list Stmt) (method path : string)
    (payload : option (gmap string PyVal))
    (headers : option (gmap string string)) (w : World) :
  let self := set_client executor
                (Some (mkClient (fresh w) (base_url executor) (timeout executor)
                                (_build_headers executor))) in
  let after := final (async_with env executor block w) in
  (exists e, outcome (execute_attack env self method path payload headers after)
               = Raise e /\ e ≠ uninitialized_error) /\
  events (execute_attack env self method path payload headers after)
    = rate_delay (rate_limit executor) /\
  sent (final (execute_attack env self method path payload headers after))
    = sent after.
Proof.
  cbn zeta. rewrite async_with_unfold. cbn zeta. cbn [final].
  set (self := set_client _ _). set (after := mkWorld _ _ _ _).
  assert (client_id (mkClient (fresh w) (base_url executor) (timeout executor)
                              (_build_headers executor)) ∈ closed after) as Hcl
    by (apply elem_of_union_l, elem_of_singleton; reflexivity).
  destruct (execute_attack_closed env self method path payload headers _ after
              eq_refl Hcl) as [Ho Hev].
  destruct (execute_attack_closed_final env self method path payload headers _ after
              eq_refl Hcl) as [Hs _].
  split; [|done]. exists closed_client_error. by split.
Qed.

(** X7: the first call inside a scope goes through the client made at the
    entry, which holds the base URL, the timeout and the headers of
    [_build_headers]: after the client is created come the rate-limit
    delay and one to three attempts through that client. *)
Theorem call_after_entry_uses_session (env : Env) (executor : Executor)
    (method path : string) (payload : option (gmap string PyVal))
    (headers : option (gmap string string)) (w : World) :
  exists m, (m < 3)%nat /\
    events (call_after_entry env executor method path payload headers w) =
      (EvOpen (mkClient (fresh w) (base_url executor) (timeout executor)
                        (_build_headers executor))
       :: rate_delay (rate_limit executor)
       ++ attempt_trace (S m)
            (EvRequest (fresh w) (request_of method path payload headers)))%list /\
    sent (final (call_after_entry env executor method path payload headers w))
      = (sent w + S m)%nat.
Proof.
  unfold call_after_entry, __aenter__, bind, AsyncClient.
  cbn [outcome final events ret app].
  set (session := mkClient _ _ _ _). set (w1 := mkWorld _ _ _ _).
  destruct (execute_attack_run env (set_client executor (Some session))
              method path payload headers session w1 eq_refl)
    as (m & Hm & Hev & Hs & _).
  { cbn. apply not_elem_of_difference. right. by apply elem_of_singleton. }
  exists m. by rewrite Hev, Hs.
Qed.

(** X8: entering the scope of an executor again inside itself loses the
    first client: the second entry puts a new client in its place, both
    exits close that second client, and the first one is never closed. *)
Theorem nested_entry_leaks (executor : Executor) (w : World) :
  events (nested_entry executor w) =
    [EvOpen (mkClient (fresh w) (base_url executor) (timeout executor)
                      (_build_headers executor));
     EvOpen (mkClient (S (fresh w)) (base_url executor) (timeout executor)
                      (_build_headers executor));
     EvClose (S (fresh w)); EvClose (S (fresh w))] /\
  (fresh w ∉ closed (final (nested_entry executor w))) /\
  S (fresh w) ∈ closed (final (nested_entry executor w)).
Proof.
  split; [reflexivity|]. cbn. split.
  - rewrite !elem_of_union, !elem_of_difference, !elem_of_singleton.
    intros [?|[?|[[_ ?] _]]]; [lia | lia | done].
  - apply elem_of_union_l, elem_of_singleton. reflexivity.
Qed.

(** X9: an executor can be entered again after its scope is over: the
    first client is closed, and the executor holds a new, open client, so
    that calls are served again. *)
Theorem reentry_gets_new_client (executor : Executor) (w : World) :
  exists self,
    outcome (reentry executor w) = Ok self /\
    _client self = Some (mkClient (S (fresh w)) (base_url executor)
                                  (timeout executor) (_build_headers executor)) /\
    active self (final (reentry executor w)) /\
    closes (events (reentry executor w)) = [fresh w] /\
    fresh w ∈ closed (final (reentry executor w)).
Proof.
  eexists. split; [reflexivity|]. split; [reflexivity|]. split; [|split].
  - eexists. split; [reflexivity|]. cbn.
    apply not_elem_of_difference. right. by apply elem_of_singleton.
  - reflexivity.
  - cbn. apply elem_of_difference. split.
    + apply elem_of_union_l, elem_of_singleton. reflexivity.
    + rewrite elem_of_singleton. lia.
Qed.

(** X10: a scope never sends more than three requests for each call of
    its block. *)
Theorem request_budget (env : Env) (executor : Executor)
    (block : list Stmt) (w : World) :
  (sent w <= sent (final (async_with env executor block w))
          <= sent w + 3 * length block)%nat.
Proof.
  rewrite async_with_unfold. cbn zeta. cbn [final sent].
  apply (run_block_sent env _ block (mkWorld _ _ _ _)).
Qed.

(** X11: with a network that fails with [RequestError]s only, a scope
    whose block calls its own executor ends without an exception, after
    at least one request for each call. *)
Theorem scoped_block_completes (env : Env) (executor : Executor)
    (block : list Stmt) (w : World) :
  only_network_failures env ->
  Forall (fun st => st_target st = None) block ->
  outcome (async_with env executor block w) = Ok tt /\
  (sent w + length block <= sent (final (async_with env executor block w)))%nat.
Proof.
  intros Hnet Hself. rewrite async_with_unfold. cbn zeta. cbn [outcome final sent].
  assert (fresh w ∉ closed w ∖ {[fresh w]}) as Hopen
    by (apply not_elem_of_difference; right; by apply elem_of_singleton).
  exact (run_block_completes env
           (set_client executor
              (Some (mkClient (fresh w) (base_url executor) (timeout executor)
                              (_build_headers executor))))
           (mkClient (fresh w) (base_url executor) (timeout executor)
                     (_build_headers executor))
           block
           (mkWorld (now w) (sent w) (closed w ∖ {[fresh w]}) (S (fresh w)))
           eq_refl Hopen Hnet Hself).
Qed.

Lemma scoped_block_completes_witness :
  outcome (async_with Sample.refusing Sample.target
             [mkStmt None "GET" "/users" None None;
              mkStmt None "POST" "/users" (Some {[ "name" := PStr "x" ]}) None]
             Sample.outside) = Ok tt /\
  (sent Sample.outside
   + length [mkStmt None "GET" "/users" None None;
             mkStmt None "POST" "/users" (Some {[ "name" := PStr "x" ]}) None]
   <= sent (final (async_with Sample.refusing Sample.target
                     [mkStmt None "GET" "/users" None None;
                      mkStmt None "POST" "/users" (Some {[ "name" := PStr "x" ]}) None]
                     Sample.outside)))%nat.
Proof.
  apply (scoped_block_completes Sample.refusing Sample.target
           [mkStmt None "GET" "/users" None None;
            mkStmt None "POST" "/users" (Some {[ "name" := PStr "x" ]}) None]
           Sample.outside).
  - intros n c rq e [= <-]. eexists. reflexivity.
  - repeat constructor.
Defined.

(** ** Results and headers *)

(** X14: a result has exactly five keys: those of a response, with
    [headers] and without [error], or those of a failure, with [error] and
    without [headers]. *)
Theorem result_keys (env : Env) (self : Executor)
    (method path : string) (payload : option (gmap string PyVal))
    (headers : option (gmap string string)) (w : World)
    (d : gmap string Value) :
  outcome (execute_attack env self method path payload headers w) = Ok (Some d) ->
  dom d = response_keys \/ dom d = failure_keys.
Proof.
  intros Hd.
  destruct (_client self) as [c|] eqn:Hc.
  - destruct (decide (client_id c ∈ closed w)) as [Hcl|Hopen].
    + destruct (execute_attack_closed env self method path payload headers
                  c w Hc Hcl) as [Ho _]. congruence.
    + destruct (execute_attack_run env self method path payload headers
                  c w Hc Hopen) as (m & _ & _ & _ & _ & _ & _ & Hlast).
      unfold settled in Hlast.
      destruct (snd (env (sent w + m) c (request_of method path payload headers)))
        as [response|[msg|msg|cls msg]]; try congruence.
      * left. rewrite Hlast in Hd. injection Hd as <-.
        unfold response_dict, response_keys.
        rewrite !dom_insert_L, dom_empty_L. set_solver.
      * right. destruct Hlast as [_ Ho]. rewrite Ho in Hd. injection Hd as <-.
        unfold failure_dict, failure_keys.
        rewrite !dom_insert_L, dom_empty_L. set_solver.
  - rewrite execute_attack_no_client in Hd by done. discriminate.
Qed.

Lemma result_keys_witness :
  dom (failure_dict "" 30000 "users") = response_keys \/
  dom (failure_dict "" 30000 "users") = failure_keys.
Proof.
  refine (result_keys Sample.silent Sample.entered "GET" "/users" None None
            Sample.inside (failure_dict "" 30000 "users") _).
  vm_compute. reflexivity.
Defined.

(** X15: the authentication type is compared as it is written: any type
    that is not exactly [bearer], [oauth] or [basic], in lower case, gives
    the [User-Agent] header alone, even with a token. *)
Theorem unknown_auth_type_sends_no_token (self : Executor) :
  auth_type self ∉ ["bearer"; "oauth"; "basic"] ->
  _build_headers self = {[ "User-Agent" := "ChaosKitten/0.1.0" ]}.
Proof.
  rewrite !not_elem_of_cons. intros (Hb & Ho & Hc & _).
  unfold _build_headers.
  rewrite bool_decide_eq_false_2.
  - by rewrite (bool_decide_eq_false_2 _ Hc).
  - rewrite !not_elem_of_cons. repeat split; auto using not_elem_of_nil.
Qed.

Lemma unknown_auth_type_sends_no_token_witness :
  _build_headers (__init__ "http://target.test" "Bearer" (Some "s3cret") 10 30)
    = {[ "User-Agent" := "ChaosKitten/0.1.0" ]}.
Proof.
  apply (unknown_auth_type_sends_no_token
           (__init__ "http://target.test" "Bearer" (Some "s3cret") 10 30)).
  cbn [auth_type __init__]. rewrite !not_elem_of_cons.
  repeat split; [discriminate..|apply not_elem_of_nil].
Defined.
